(** * Application bootstrap of vue-fastapi-admin ([app/__init__.py])

    A shallow embedding of the bootstrap module: the ORM configuration
    builder [build_orm_config], the static-file gateway [load_static] with
    the HTTP exception handler it registers, the environment-driven
    [load_dotenv_file], and the [startup_event] callback. *)

From Stdlib Require Import ZArith.
From stdpp Require Import gmap strings list fin_maps.

Local Open Scope string_scope.
Local Open Scope Z_scope.
Set Warnings "-register-all".

(** ** Process environment and logging *)

(** [os.environ]: a mapping from variable names to their values. *)
Abbreviation environ := (gmap string string).

(** [os.getenv(key)]: the value, or [None] when the variable is absent. *)
Definition getenv (env : environ) (key : string) : option string := env !! key.

Inductive log_level := INFO | WARNING.

(** One record emitted on the ["uvicorn"] logger. *)
Record log_record := LogRecord { levelname : log_level; msg : string }.

Definition logger_info (m : string) : log_record := LogRecord INFO m.
Definition logger_warning (m : string) : log_record := LogRecord WARNING m.

(** ** Settings and the ORM configuration *)

(** One entry of ["connections"]. The credentials dictionary holds what
    [os.getenv] returned, so a value may be [None]. *)
Record connection := Connection {
  engine : string;
  credentials : gmap string (option string);
}.

(** One entry of ["apps"]. *)
Record app_config := AppConfig {
  models : list string;
  default_connection : string;
}.

(** The dictionary returned by [build_orm_config]. *)
Record orm_config := OrmConfig {
  connections : gmap string connection;
  apps : gmap string app_config;
  use_tz : bool;
  timezone : string;
}.

(** The part of [app.settings.config.settings] this module touches. *)
Record Settings := {
  BASE_DIR : string;
  TORTOISE_ORM : orm_config;
}.

(** [build_orm_config(db_type)], lines 63-99. The argument is what
    [os.getenv("DATABASE_TYPE")] returned. The result pairs the records
    logged with the returned dictionary. *)
Definition build_orm_config (env : environ) (settings : Settings)
    (db_type : option string) : list log_record * orm_config :=
  let '(db_type, logged, credentials) :=
    if decide (db_type = Some "mysql") then
      ("mysql",
       [logger_info "当前使用MySQL数据库"],
       ({[ "host" := getenv env "MYXQL_HOST";
           "port" := getenv env "MYXQL_PORT";
           "user" := getenv env "MYXQL_USER";
           "password" := getenv env "MYXQL_PASSWORD";
           "database" := getenv env "MYXQL_DATABASE" ]}
        : gmap string (option string)))
    else if decide (db_type = Some "sqlite") then
      ("sqlite",
       [logger_info "当前使用SQLite数据库"],
       {[ "file_path" := Some (BASE_DIR settings ++ "/db.sqlite3") ]})
    else
      ("sqlite",
       [logger_info "未提供数据库类型,默认使用使用SQLite数据库"],
       {[ "file_path" := Some (BASE_DIR settings ++ "/db.sqlite3") ]})
  in
  (logged,
   {| connections :=
        {[ db_type := {| engine := "tortoise.backends." ++ db_type;
                         credentials := credentials |} ]};
      apps :=
        {[ "models" := {| models := ["app.models"];
                          default_connection := db_type |} ]};
      use_tz := false;
      timezone := "Asia/Shanghai" |}).

(** ** Requests, HTTP errors and responses *)

(** A JSON-serialisable Python value, as carried by [exc.detail] and by the
    [content] of a [JSONResponse]. *)
Inductive json :=
  | JNull
  | JBool (b : bool)
  | JNum (n : Z)
  | JStr (s : string)
  | JArr (items : list json)
  | JObj (fields : list (string * json)).

(** The request, reduced to what the handler reads: [request.url.path]. *)
Record Request := { url_path : string }.

(** [starlette.exceptions.HTTPException]. *)
Record HTTPException := {
  status_code : Z;
  detail : json;
  headers : option (list (string * string));
}.

(** [starlette.status.HTTP_404_NOT_FOUND]. *)
Definition HTTP_404_NOT_FOUND : Z := 404.

Inductive Response :=
  | RedirectResponse (url : string)
  | JSONResponse (status_code : Z) (content : json).

(** [s.startswith(p)]. *)
Definition startswith (s p : string) : bool := String.prefix p s.

(** The handler registered by [load_static] for [HTTPException]
    (the function named [_] at lines 31-44). *)
Definition http_exception_handler (request : Request) (exc : HTTPException)
    : Response :=
  if decide (status_code exc = HTTP_404_NOT_FOUND) then
    let path := url_path request in
    if negb (startswith path "/api") then
      RedirectResponse "/"
    else
      JSONResponse HTTP_404_NOT_FOUND (JObj [("detail", JStr "Not Found")])
  else
    JSONResponse (status_code exc) (JObj [("detail", detail exc)]).

(** ** The application object *)

(** What the calls of this module can raise. *)
Inductive exception :=
  | RuntimeError (message : string).

(** How a call ends: it returns a value or raises. *)
Inductive result (A : Type) :=
  | Ok (a : A)
  | Raise (e : exception).
Arguments Ok {A} a.
Arguments Raise {A} e.

(** An ASGI application that can be mounted. *)
Inductive asgi_app :=
  | StaticFiles (directory : string) (html : bool).

(** The constructor call [StaticFiles(directory=d, html=h)]. With its
    default [check_dir=True] Starlette tests [os.path.isdir(d)] and raises
    [RuntimeError] when the directory does not exist; [isdir] is that test
    on the file system the process runs on. *)
Definition StaticFiles_init (isdir : string -> bool) (directory : string) (html : bool)
    : result asgi_app :=
  if isdir directory then Ok (StaticFiles directory html)
  else Raise (RuntimeError ("Directory '" ++ directory ++ "' does not exist")).

(** A [Mount] route as appended by [app.mount(path, app, name)]. *)
Record Mount := { mount_path : string; mount_app : asgi_app; mount_name : string }.

Abbreviation handler := (Request -> HTTPException -> Response).

(** The key under which a handler for the class
    [starlette.exceptions.HTTPException] is stored. *)
Definition HTTPException_class : string := "starlette.exceptions.HTTPException".

(** The part of the [FastAPI] object this module changes: the route list
    and the [exception_handlers] dictionary. *)
Record FastAPI := {
  routes : list Mount;
  exception_handlers : gmap string handler;
}.

(** [app.mount(path, sub, name)] appends a route. *)
Definition mount (app : FastAPI) (path : string) (sub : asgi_app) (name : string)
    : FastAPI :=
  {| routes :=
       (routes app ++ [{| mount_path := path; mount_app := sub; mount_name := name |}])%list;
     exception_handlers := exception_handlers app |}.

(** [app.exception_handler(cls)(func)] stores [func] under [cls],
    replacing an earlier handler for the same class. *)
Definition exception_handler (app : FastAPI) (cls : string) (func : handler)
    : FastAPI :=
  {| routes := routes app;
     exception_handlers := <[cls := func]> (exception_handlers app) |}.

(** [load_static(app)], lines 25-44. The [StaticFiles] object is built
    before [app.mount] is called, so when the constructor raises the
    application has received neither the mount nor the handler. *)
Definition load_static (isdir : string -> bool) (app : FastAPI) : result FastAPI :=
  match StaticFiles_init isdir "web/dist" true with
  | Raise e => Raise e
  | Ok files =>
      let app := mount app "/" files "dist" in
      Ok (exception_handler app HTTPException_class http_exception_handler)
  end.

(** The state [load_dotenv_file] acts on: the application, the settings
    object and the records logged so far. *)
Record process := {
  app : FastAPI;
  settings : Settings;
  logged : list log_record;
}.

(** [load_dotenv_file(app)], lines 47-60: how the call ends and the state
    it leaves. An exception of [load_static] leaves the function at line
    54, after the record of line 53 was logged and before
    [settings.TORTOISE_ORM] is assigned. *)
Definition load_dotenv_file (env : environ) (isdir : string -> bool) (p : process)
    : result unit * process :=
  let '(served, p1) :=
    if decide (getenv env "LOAD_STATIC_FROM_LOCAL" = Some "true") then
      let logged1 := (logged p ++ [logger_info "使用FastAPI提供静态网页服务"])%list in
      match load_static isdir (app p) with
      | Ok app1 =>
          (Ok tt, {| app := app1; settings := settings p; logged := logged1 |})
      | Raise e =>
          (Raise e, {| app := app p; settings := settings p; logged := logged1 |})
      end
    else
      (Ok tt,
       {| app := app p;
          settings := settings p;
          logged :=
            (logged p ++
             [logger_warning "未使用FastAPI提供静态网页服务,请单独启动静态网页服务!"])%list |})
  in
  match served with
  | Raise e => (Raise e, p1)
  | Ok _ =>
      let db_type := getenv env "DATABASE_TYPE" in
      let '(logged2, config) := build_orm_config env (settings p1) db_type in
      (Ok tt,
       {| app := app p1;
          settings := {| BASE_DIR := BASE_DIR (settings p1); TORTOISE_ORM := config |};
          logged := (logged p1 ++ logged2)%list |})
  end.

(** ** The startup callback *)

(** The two collaborators awaited by [startup_event]. *)
Inductive task := InitSuperuser | InitMenus.

Section Startup.
(** [World] is whatever the collaborators of [app.core.init_app] act on
    (the database); [Exn] is what they may raise. *)
Context {World Exn : Type}.

(** How awaiting a coroutine ends. *)
Inductive outcome (A : Type) :=
  | Returned (a : A)
  | Raised (e : Exn).
Global Arguments Returned {A} a.
Global Arguments Raised {A} e.

(** The state a run threads along: the collaborators' world and the
    calls made so far, oldest first. *)
Record run_state := { world : World; calls : list task }.

(** A coroutine, awaited to completion. *)
Definition coroutine (A : Type) : Type := run_state -> outcome A * run_state.

(** Sequencing of two awaits: an exception raised by the first ends the
    run, and the second is not started. *)
Definition bind {A B} (m : coroutine A) (k : A -> coroutine B) : coroutine B :=
  fun s =>
    match m s with
    | (Returned a, s') => k a s'
    | (Raised e, s') => (Raised e, s')
    end.

(** The collaborators, which live in [app.core.init_app]. *)
Variables init_superuser init_menus : World -> outcome unit * World.

Definition body (t : task) : World -> outcome unit * World :=
  match t with
  | InitSuperuser => init_superuser
  | InitMenus => init_menus
  end.

(** [await t()]: the call is recorded and the collaborator runs. *)
Definition await (t : task) : coroutine unit :=
  fun s =>
    let '(r, w) := body t (world s) in
    (r, {| world := w; calls := (calls s ++ [t])%list |}).

(** [startup_event()], lines 125-128. *)
Definition startup_event : coroutine unit :=
  bind (await InitSuperuser) (fun _ => await InitMenus).
End Startup.

Arguments outcome : clear implicits.
Arguments run_state : clear implicits.
Arguments coroutine : clear implicits.

(** ** Auxiliary definitions and sample inputs *)

(** The database kind the builder settles on. *)
Definition resolved_kind (db_type : option string) : string :=
  if decide (db_type = Some "mysql") then "mysql" else "sqlite".

(** The route [load_static] mounts. *)
Definition static_mount : Mount :=
  {| mount_path := "/"; mount_app := StaticFiles "web/dist" true; mount_name := "dist" |}.

(** The body of the JSON answer to a 404 under the API prefix. *)
Definition not_found_response : Response :=
  JSONResponse 404 (JObj [("detail", JStr "Not Found")]).

(** A settings object, an empty application and two HTTP errors. *)
Definition settings0 : Settings :=
  {| BASE_DIR := "/srv/admin";
     TORTOISE_ORM := {| connections := ∅; apps := ∅; use_tz := true; timezone := "UTC" |} |}.

Definition process0 : process :=
  {| app := {| routes := []; exception_handlers := ∅ |};
     settings := settings0;
     logged := [] |}.

Definition not_found : HTTPException :=
  {| status_code := 404; detail := JStr "Not Found"; headers := None |}.

Definition unprocessable : HTTPException :=
  {| status_code := 422;
     detail := JArr [JObj [("msg", JStr "field required")]];
     headers := None |}.

(** Two file systems: one without any directory, one where [web/dist]
    exists. *)
Definition no_directory : string -> bool := fun _ => false.
Definition with_dist : string -> bool := fun d => bool_decide (d = "web/dist").

(** The message of the [RuntimeError] raised for a missing [web/dist]. *)
Definition missing_dist : exception :=
  RuntimeError "Directory 'web/dist' does not exist".

(** An application that already carries a handler for [HTTPException],
    one that answers with the status and the detail of the error. *)
Definition plain_handler (request : Request) (exc : HTTPException) : Response :=
  JSONResponse (status_code exc) (JObj [("detail", detail exc)]).

Definition process1 : process :=
  {| app := {| routes := [];
               exception_handlers := {[ HTTPException_class := plain_handler ]} |};
     settings := settings0;
     logged := [] |}.

(** A 404 raised by a route with a message of its own. *)
Definition user_missing : HTTPException :=
  {| status_code := 404;
     detail := JStr "User 7 does not exist";
     headers := Some [("X-Error", "user")] |}.

(** Two environments that agree on the five [MYXQL_*] variables; the first
    also sets the usual spelling [MYSQL_HOST]. *)
Definition env_mysql_a : environ :=
  {[ "MYSQL_HOST" := "other.local"; "MYXQL_HOST" := "db.local"; "MYXQL_USER" := "root" ]}.
Definition env_mysql_b : environ :=
  {[ "MYXQL_HOST" := "db.local"; "MYXQL_USER" := "root"; "DATABASE_TYPE" := "mysql" ]}.

Definition settings1 : Settings :=
  {| BASE_DIR := "/opt/other"; TORTOISE_ORM := TORTOISE_ORM settings0 |}.

(** A run on a world that counts the records created: the superuser task
    finds no database and raises. *)
Definition failing_superuser (w : nat) : outcome string unit * nat :=
  (Raised "database unreachable", w).
Definition working_superuser (w : nat) : outcome string unit * nat :=
  (Returned tt, S w).
Definition working_menus (w : nat) : outcome string unit * nat :=
  (Returned tt, (w + 10)%nat).

(** * Properties *)

(** ** The configuration builder *)

Lemma build_orm_config_shape env settings db_type :
  exists creds,
    (build_orm_config env settings db_type).2 =
      {| connections :=
           {[ resolved_kind db_type :=
                {| engine := "tortoise.backends." ++ resolved_kind db_type;
                   credentials := creds |} ]};
         apps := {[ "models" := {| models := ["app.models"];
                                   default_connection := resolved_kind db_type |} ]};
         use_tz := false;
         timezone := "Asia/Shanghai" |}.
Proof.
  unfold build_orm_config, resolved_kind.
  repeat case_decide; simpl; eauto.
Qed.

(** C1. Every token other than ["mysql"] and ["sqlite"], the absent token
    included, yields the sqlite configuration whose credentials are the
    single entry [file_path = BASE_DIR/db.sqlite3]. The builder is a total
    function: it has a result, and no failure outcome, at every token. *)
Theorem build_orm_config_fallback env settings db_type :
  db_type <> Some "mysql" ->
  db_type <> Some "sqlite" ->
  (build_orm_config env settings db_type).2 =
    {| connections :=
         {[ "sqlite" := {| engine := "tortoise.backends.sqlite";
                           credentials :=
                             {[ "file_path" := Some (BASE_DIR settings ++ "/db.sqlite3") ]} |} ]};
       apps := {[ "models" := {| models := ["app.models"];
                                 default_connection := "sqlite" |} ]};
       use_tz := false;
       timezone := "Asia/Shanghai" |}.
Proof.
  intros Hmysql Hsqlite. unfold build_orm_config.
  destruct (decide (db_type = Some "mysql")) as [E|_]; [contradiction|].
  destruct (decide (db_type = Some "sqlite")) as [E|_]; [contradiction|].
  reflexivity.
Qed.

Lemma build_orm_config_fallback_witness :
  (build_orm_config ∅ settings0 (Some "postgres")).2 =
    {| connections :=
         {[ "sqlite" := {| engine := "tortoise.backends.sqlite";
                           credentials := {[ "file_path" := Some "/srv/admin/db.sqlite3" ]} |} ]};
       apps := {[ "models" := {| models := ["app.models"];
                                 default_connection := "sqlite" |} ]};
       use_tz := false;
       timezone := "Asia/Shanghai" |}.
Proof.
  apply (build_orm_config_fallback ∅ settings0 (Some "postgres")); discriminate.
Defined.

(** The absent token and a token in another letter case take the same
    fall-back branch. *)
Example build_orm_config_absent :
  (build_orm_config ∅ settings0 None).2 =
  (build_orm_config ∅ settings0 (Some "MySQL")).2.
Proof. reflexivity. Qed.

(** C5. With the token ["mysql"] the single connection is keyed ["mysql"],
    uses the mysql engine, and its credentials are exactly the five fields
    host, port, user, password and database, each holding what [os.getenv]
    gave for the matching [MYXQL_*] variable: the value when the variable is
    set and [None] when it is absent. *)
Theorem build_orm_config_mysql env settings :
  exists creds : gmap string (option string),
    connections (build_orm_config env settings (Some "mysql")).2 =
      {[ "mysql" := {| engine := "tortoise.backends.mysql"; credentials := creds |} ]}
    /\ dom creds = ({[ "host"; "port"; "user"; "password"; "database" ]} : gset string)
    /\ creds !! "host" = Some (env !! "MYXQL_HOST")
    /\ creds !! "port" = Some (env !! "MYXQL_PORT")
    /\ creds !! "user" = Some (env !! "MYXQL_USER")
    /\ creds !! "password" = Some (env !! "MYXQL_PASSWORD")
    /\ creds !! "database" = Some (env !! "MYXQL_DATABASE").
Proof.
  eexists. split; [reflexivity|].
  split.
  - rewrite !dom_insert_L, dom_singleton_L. set_solver.
  - unfold getenv. repeat split; by simplify_map_eq.
Qed.

(** A partly filled environment: the port and the password are absent and
    stay [None] in the credentials. *)
Example build_orm_config_mysql_partial :
  let env : environ :=
    {[ "MYXQL_HOST" := "db.local"; "MYXQL_USER" := "root"; "MYXQL_DATABASE" := "admin" ]} in
  credentials <$> (connections (build_orm_config env settings0 (Some "mysql")).2 !! "mysql") =
    Some {[ "host" := Some "db.local"; "port" := None; "user" := Some "root";
            "password" := None; "database" := Some "admin" ]}.
Proof. reflexivity. Qed.

(** C6. Whatever the token and the environment, the configuration declares
    exactly one connection; its key is the resolved kind, mysql or sqlite,
    its engine is that kind's backend, and the default connection of the
    single ["models"] app is that same kind. *)
Theorem build_orm_config_single_default env settings db_type :
  let config := (build_orm_config env settings db_type).2 in
  exists kind conn,
    (kind = "mysql" \/ kind = "sqlite")
    /\ connections config = {[ kind := conn ]}
    /\ size (connections config) = 1%nat
    /\ dom (connections config) = ({[ kind ]} : gset string)
    /\ engine conn = "tortoise.backends." ++ kind
    /\ default_connection <$> (apps config !! "models") = Some kind
    /\ size (apps config) = 1%nat.
Proof.
  destruct (build_orm_config_shape env settings db_type) as [creds ->]. simpl.
  eexists (resolved_kind db_type), _.
  split; [unfold resolved_kind; case_decide; auto|].
  split; [reflexivity|].
  rewrite !map_size_singleton, dom_singleton_L, lookup_singleton_eq. done.
Qed.

(** C9. The model sources, the timezone switch and the timezone are the
    same constants for every token, environment and settings object. *)
Theorem build_orm_config_constants env settings db_type :
  let config := (build_orm_config env settings db_type).2 in
  models <$> (apps config !! "models") = Some ["app.models"]
  /\ use_tz config = false
  /\ timezone config = "Asia/Shanghai".
Proof.
  destruct (build_orm_config_shape env settings db_type) as [creds ->]. simpl.
  rewrite lookup_singleton_eq. done.
Qed.

(** ** The HTTP exception handler *)

(** [startswith] is the plain prefix test: it holds exactly when the string
    is the prefix followed by some rest. *)
Lemma startswith_spec (s p : string) :
  startswith s p = true <-> exists rest, s = p ++ rest.
Proof.
  unfold startswith. revert s.
  induction p as [|a p IH]; intros s.
  - split; [intros _; exists s; reflexivity | intros _; destruct s; reflexivity].
  - destruct s as [|b s]; simpl.
    + split; [discriminate | intros [rest H]; discriminate H].
    + destruct (Ascii.ascii_dec a b) as [->|Hab].
      * rewrite IH. split; intros [rest H]; exists rest.
        -- rewrite H. reflexivity.
        -- injection H as H. exact H.
      * split; [discriminate | intros [rest H]].
        injection H as H1 H2. congruence.
Qed.

Lemma http_exception_handler_404_cases request exc :
  status_code exc = 404 ->
  http_exception_handler request exc =
    if startswith (url_path request) "/api" then not_found_response
    else RedirectResponse "/".
Proof.
  intros H. unfold http_exception_handler, HTTP_404_NOT_FOUND.
  destruct (decide (status_code exc = 404)) as [_|N]; [|contradiction].
  destruct (startswith (url_path request) "/api"); reflexivity.
Qed.

(** C2. For an HTTP error with status 404 the handler answers a path that
    does not start with ["/api"] by a redirect to ["/"], and a path that
    starts with ["/api"] by status 404 with body [{"detail": "Not Found"}]. *)
Theorem http_exception_handler_404 request exc :
  status_code exc = 404 ->
  (startswith (url_path request) "/api" = false ->
     http_exception_handler request exc = RedirectResponse "/")
  /\ (startswith (url_path request) "/api" = true ->
       http_exception_handler request exc =
         JSONResponse 404 (JObj [("detail", JStr "Not Found")])).
Proof.
  intros H. rewrite (http_exception_handler_404_cases _ _ H).
  split; intros ->; reflexivity.
Qed.

Lemma http_exception_handler_404_witness :
  http_exception_handler {| url_path := "/dashboard/settings" |} not_found =
    RedirectResponse "/"
  /\ http_exception_handler {| url_path := "/api/unknown" |} not_found =
       JSONResponse 404 (JObj [("detail", JStr "Not Found")]).
Proof.
  split.
  - apply (http_exception_handler_404 {| url_path := "/dashboard/settings" |} not_found);
      reflexivity.
  - apply (http_exception_handler_404 {| url_path := "/api/unknown" |} not_found);
      reflexivity.
Defined.

(** C7. An HTTP error whose status is not 404 is passed through on every
    path: the response carries the error's own status code and the body
    [{"detail": exc.detail}]. *)
Theorem http_exception_handler_passthrough request exc :
  status_code exc <> 404 ->
  http_exception_handler request exc =
    JSONResponse (status_code exc) (JObj [("detail", detail exc)]).
Proof.
  intros H. unfold http_exception_handler, HTTP_404_NOT_FOUND.
  destruct (decide (status_code exc = 404)) as [E|_]; [contradiction|reflexivity].
Qed.

Lemma http_exception_handler_passthrough_witness :
  http_exception_handler {| url_path := "/api/v1/user" |} unprocessable =
    JSONResponse 422 (JObj [("detail", JArr [JObj [("msg", JStr "field required")]])]).
Proof.
  apply (http_exception_handler_passthrough {| url_path := "/api/v1/user" |} unprocessable).
  discriminate.
Defined.

(** C10. On a 404 the test is on the characters of the path alone: the
    JSON 404 body is the answer exactly when the path is ["/api"] followed
    by anything, ["/apifoo"] included, and the redirect to ["/"] is the
    answer exactly when it is not. *)
Theorem http_exception_handler_prefix_test request exc :
  status_code exc = 404 ->
  (http_exception_handler request exc =
     JSONResponse 404 (JObj [("detail", JStr "Not Found")])
   <-> exists rest, url_path request = "/api" ++ rest)
  /\ (http_exception_handler request exc = RedirectResponse "/"
      <-> ~ exists rest, url_path request = "/api" ++ rest)
  /\ http_exception_handler {| url_path := "/apifoo" |} exc =
       JSONResponse 404 (JObj [("detail", JStr "Not Found")]).
Proof.
  intros H. rewrite !(http_exception_handler_404_cases _ _ H).
  rewrite <- startswith_spec.
  destruct (startswith (url_path request) "/api"); unfold not_found_response;
    repeat split; done.
Qed.

Lemma http_exception_handler_prefix_test_witness :
  (http_exception_handler {| url_path := "/apifoo" |} not_found =
     JSONResponse 404 (JObj [("detail", JStr "Not Found")])
   <-> exists rest, "/apifoo" = "/api" ++ rest)
  /\ (http_exception_handler {| url_path := "/ap" |} not_found = RedirectResponse "/"
      <-> ~ exists rest, "/ap" = "/api" ++ rest).
Proof.
  split.
  - apply (http_exception_handler_prefix_test {| url_path := "/apifoo" |} not_found).
    reflexivity.
  - apply (http_exception_handler_prefix_test {| url_path := "/ap" |} not_found).
    reflexivity.
Defined.

(** ** Static serving *)

Lemma load_static_ok isdir a :
  isdir "web/dist" = true ->
  load_static isdir a =
    Ok {| routes := (routes a ++ [static_mount])%list;
          exception_handlers :=
            <[HTTPException_class := http_exception_handler]> (exception_handlers a) |}.
Proof. intros H. unfold load_static, StaticFiles_init. by rewrite H. Qed.

Lemma load_static_raise isdir a :
  isdir "web/dist" = false -> load_static isdir a = Raise missing_dist.
Proof. intros H. unfold load_static, StaticFiles_init. by rewrite H. Qed.

(** The three ways a call of [load_dotenv_file] goes. *)
Lemma load_dotenv_file_cases env isdir p :
  load_dotenv_file env isdir p =
    let built := build_orm_config env (settings p) (getenv env "DATABASE_TYPE") in
    let settings1 := {| BASE_DIR := BASE_DIR (settings p); TORTOISE_ORM := built.2 |} in
    if decide (getenv env "LOAD_STATIC_FROM_LOCAL" = Some "true") then
      let logged1 := (logged p ++ [logger_info "使用FastAPI提供静态网页服务"])%list in
      if isdir "web/dist" then
        (Ok tt,
         {| app :=
              {| routes := (routes (app p) ++ [static_mount])%list;
                 exception_handlers :=
                   <[HTTPException_class := http_exception_handler]>
                     (exception_handlers (app p)) |};
            settings := settings1;
            logged := (logged1 ++ built.1)%list |})
      else
        (Raise missing_dist,
         {| app := app p; settings := settings p; logged := logged1 |})
    else
      (Ok tt,
       {| app := app p;
          settings := settings1;
          logged :=
            ((logged p ++
              [logger_warning "未使用FastAPI提供静态网页服务,请单独启动静态网页服务!"])
             ++ built.1)%list |}).
Proof.
  unfold load_dotenv_file. simpl.
  destruct (decide (getenv env "LOAD_STATIC_FROM_LOCAL" = Some "true")).
  - destruct (isdir "web/dist") eqn:D.
    + rewrite (load_static_ok _ _ D). simpl.
      by destruct (build_orm_config env (settings p) (getenv env "DATABASE_TYPE")).
    + by rewrite (load_static_raise _ _ D).
  - simpl. by destruct (build_orm_config env (settings p) (getenv env "DATABASE_TYPE")).
Qed.





(** Only the exact lower-case string enables static serving. *)
Example load_dotenv_file_static_values :
  routes (app (load_dotenv_file {[ "LOAD_STATIC_FROM_LOCAL" := "true" ]} with_dist process0).2)
    = [static_mount]
  /\ routes (app (load_dotenv_file {[ "LOAD_STATIC_FROM_LOCAL" := "True" ]} with_dist process0).2)
       = []
  /\ routes (app (load_dotenv_file {[ "LOAD_STATIC_FROM_LOCAL" := "TRUE" ]} with_dist process0).2)
       = []
  /\ routes (app (load_dotenv_file {[ "LOAD_STATIC_FROM_LOCAL" := "1" ]} with_dist process0).2)
       = []
  /\ routes (app (load_dotenv_file {[ "LOAD_STATIC_FROM_LOCAL" := "true " ]} with_dist process0).2)
       = []
  /\ routes (app (load_dotenv_file ∅ with_dist process0).2) = [].
Proof. repeat split; reflexivity. Qed.

(** C4, as stated, fails: with the variable absent no mount is added, but
    the handler of this module is not registered either. The application
    keeps the handler it had, no handler in its table answers a 404 on
    [/dashboard/settings] the way the handler of this module does, and so
    that request is not answered by the redirect. *)
Lemma load_dotenv_file_disabled_no_translator :
  getenv ∅ "LOAD_STATIC_FROM_LOCAL" <> Some "true"
  /\ (load_dotenv_file ∅ with_dist process1).1 = Ok tt
  /\ routes (app (load_dotenv_file ∅ with_dist process1).2) = []
  /\ exception_handlers (app (load_dotenv_file ∅ with_dist process1).2)
       !! HTTPException_class = Some plain_handler
  /\ (forall cls h,
        exception_handlers (app (load_dotenv_file ∅ with_dist process1).2) !! cls = Some h ->
        h {| url_path := "/dashboard/settings" |} not_found <>
        http_exception_handler {| url_path := "/dashboard/settings" |} not_found)
  /\ http_exception_handler {| url_path := "/dashboard/settings" |} not_found =
       RedirectResponse "/".
Proof.
  split; [discriminate|]. split; [reflexivity|]. split; [reflexivity|].
  split; [reflexivity|]. split; [|reflexivity].
  intros cls h H.
  change (({[ HTTPException_class := plain_handler ]} : gmap string handler) !! cls = Some h)
    in H.
  apply lookup_singleton_Some in H as [_ <-]. discriminate.
Qed.

(** C4, amended. With static serving disabled [load_dotenv_file] returns
    and leaves the application object as it was: no static mount is added
    and no exception handler is registered, so an HTTP error is answered
    exactly as the application answered it before the call, however the
    answer is computed from the application. *)
Theorem load_dotenv_file_static_disabled env isdir p :
  getenv env "LOAD_STATIC_FROM_LOCAL" <> Some "true" ->
  (load_dotenv_file env isdir p).1 = Ok tt
  /\ app (load_dotenv_file env isdir p).2 = app p
  /\ routes (app (load_dotenv_file env isdir p).2) = routes (app p)
  /\ exception_handlers (app (load_dotenv_file env isdir p).2) = exception_handlers (app p)
  /\ forall (R : Type) (answer : FastAPI -> Request -> HTTPException -> R) request exc,
       answer (app (load_dotenv_file env isdir p).2) request exc =
       answer (app p) request exc.
Proof.
  intros N. rewrite load_dotenv_file_cases. simpl.
  destruct (decide (getenv env "LOAD_STATIC_FROM_LOCAL" = Some "true")); [contradiction|].
  repeat split.
Qed.

Lemma load_dotenv_file_static_disabled_witness :
  (load_dotenv_file {[ "LOAD_STATIC_FROM_LOCAL" := "True" ]} with_dist process1).1 = Ok tt
  /\ app (load_dotenv_file {[ "LOAD_STATIC_FROM_LOCAL" := "True" ]} with_dist process1).2 =
       app process1.
Proof.
  destruct (load_dotenv_file_static_disabled
              {[ "LOAD_STATIC_FROM_LOCAL" := "True" ]} with_dist process1)
    as (H1 & H2 & _); [discriminate|].
  split; [exact H1 | exact H2].
Defined.

(** ** The startup callback *)

Section StartupProperties.
Context {World Exn : Type}.
Variables init_superuser init_menus : World -> outcome Exn unit * World.

Lemma await_unfold t (s : run_state World) :
  await init_superuser init_menus t s =
    ((body init_superuser init_menus t (world s)).1,
     {| world := (body init_superuser init_menus t (world s)).2;
        calls := (calls s ++ [t])%list |}).
Proof. unfold await. destruct (body _ _ t (world s)); reflexivity. Qed.

(** C3. The callback first awaits the superuser task. When that task
    returns, the menu task is awaited next on the world it left, the calls
    made are superuser then menus, and the callback ends as the menu task
    ended. When the superuser task raises, the callback raises the same
    exception, and the only call made is the one to the superuser task:
    the menu task is not invoked. *)
Theorem startup_event_sequencing (s : run_state World) :
  (forall w1, init_superuser (world s) = (Returned tt, w1) ->
     startup_event init_superuser init_menus s =
       ((init_menus w1).1,
        {| world := (init_menus w1).2;
           calls := (calls s ++ [InitSuperuser; InitMenus])%list |}))
  /\ (forall e w1, init_superuser (world s) = (Raised e, w1) ->
       startup_event init_superuser init_menus s =
         (Raised e, {| world := w1; calls := (calls s ++ [InitSuperuser])%list |})).
Proof.
  split.
  - intros w1 H. unfold startup_event, bind.
    rewrite await_unfold. simpl. rewrite H. simpl.
    rewrite await_unfold. simpl. by rewrite <- app_assoc.
  - intros e w1 H. unfold startup_event, bind.
    rewrite await_unfold. simpl. by rewrite H.
Qed.
End StartupProperties.

Lemma startup_event_sequencing_witness :
  startup_event failing_superuser working_menus {| world := 0%nat; calls := [] |} =
    (Raised "database unreachable", {| world := 0%nat; calls := [InitSuperuser] |})
  /\ startup_event working_superuser working_menus {| world := 0%nat; calls := [] |} =
       (Returned tt, {| world := 11%nat; calls := [InitSuperuser; InitMenus] |}).
Proof.
  split.
  - apply (proj2 (startup_event_sequencing failing_superuser working_menus
                    {| world := 0%nat; calls := [] |})).
    reflexivity.
  - apply (proj1 (startup_event_sequencing working_superuser working_menus
                    {| world := 0%nat; calls := [] |}) 1%nat).
    reflexivity.
Defined.


(** * Further properties *)

(** ** The configuration builder *)

(** X1. A token that is neither ["mysql"] nor ["sqlite"] gets the very
    configuration the token ["sqlite"] gets; the two calls differ only in
    the record they log. *)
Theorem build_orm_config_fallback_like_sqlite env settings db_type :
  db_type <> Some "mysql" ->
  db_type <> Some "sqlite" ->
  (build_orm_config env settings db_type).2 =
    (build_orm_config env settings (Some "sqlite")).2
  /\ (build_orm_config env settings db_type).1 <>
     (build_orm_config env settings (Some "sqlite")).1.
Proof.
  intros Hm Hs. unfold build_orm_config.
  destruct (decide (db_type = Some "mysql")); [contradiction|].
  destruct (decide (db_type = Some "sqlite")); [contradiction|].
  split; [reflexivity | discriminate].
Qed.

Lemma build_orm_config_fallback_like_sqlite_witness :
  (build_orm_config ∅ settings0 (Some "postgres")).2 =
    (build_orm_config ∅ settings0 (Some "sqlite")).2
  /\ (build_orm_config ∅ settings0 (Some "postgres")).1 <>
     (build_orm_config ∅ settings0 (Some "sqlite")).1.
Proof.
  apply (build_orm_config_fallback_like_sqlite ∅ settings0 (Some "postgres"));
    discriminate.
Defined.

(** X2. Unless the token is ["mysql"], the builder does not read the
    environment: two environments give the same configuration and the
    same log. *)
Theorem build_orm_config_sqlite_ignores_env env1 env2 settings db_type :
  db_type <> Some "mysql" ->
  build_orm_config env1 settings db_type = build_orm_config env2 settings db_type.
Proof.
  intros Hm. unfold build_orm_config.
  destruct (decide (db_type = Some "mysql")); [contradiction|].
  destruct (decide (db_type = Some "sqlite")); reflexivity.
Qed.

Lemma build_orm_config_sqlite_ignores_env_witness :
  build_orm_config env_mysql_a settings0 None = build_orm_config ∅ settings0 None.
Proof.
  apply (build_orm_config_sqlite_ignores_env env_mysql_a ∅ settings0 None).
  discriminate.
Defined.

(** X3. With the token ["mysql"] the result depends on the five
    [MYXQL_*] variables alone: environments that agree on them give the
    same configuration, whatever else they hold (a variable spelt
    [MYSQL_HOST] included) and whatever the settings object is. *)
Theorem build_orm_config_mysql_reads_five env1 env2 (s1 s2 : Settings) :
  env1 !! "MYXQL_HOST" = env2 !! "MYXQL_HOST" ->
  env1 !! "MYXQL_PORT" = env2 !! "MYXQL_PORT" ->
  env1 !! "MYXQL_USER" = env2 !! "MYXQL_USER" ->
  env1 !! "MYXQL_PASSWORD" = env2 !! "MYXQL_PASSWORD" ->
  env1 !! "MYXQL_DATABASE" = env2 !! "MYXQL_DATABASE" ->
  build_orm_config env1 s1 (Some "mysql") =
  build_orm_config env2 s2 (Some "mysql").
Proof.
  intros Hh Hp Hu Hw Hd. unfold build_orm_config, getenv.
  destruct (decide (Some "mysql" = Some "mysql")); [|contradiction].
  by rewrite Hh, Hp, Hu, Hw, Hd.
Qed.

Lemma build_orm_config_mysql_reads_five_witness :
  build_orm_config env_mysql_a settings0 (Some "mysql") =
  build_orm_config env_mysql_b settings1 (Some "mysql").
Proof.
  apply (build_orm_config_mysql_reads_five env_mysql_a env_mysql_b settings0 settings1);
    reflexivity.
Defined.

(** X4. Every call of the builder logs exactly one record, and at level
    INFO: the fall-back to sqlite is not logged as a warning. *)
Theorem build_orm_config_logs_one_info env settings db_type :
  exists m, (build_orm_config env settings db_type).1 = [LogRecord INFO m].
Proof.
  unfold build_orm_config, logger_info.
  destruct (decide (db_type = Some "mysql")); [eexists; reflexivity|].
  destruct (decide (db_type = Some "sqlite")); eexists; reflexivity.
Qed.

(** ** The HTTP exception handler *)

(** X5. On a 404 the handler looks at the path only: the error's own
    [detail] and [headers] do not reach the response, so a 404 raised with
    a message of its own under ["/api"] is answered ["Not Found"]. *)
Theorem http_exception_handler_404_drops_detail request exc1 exc2 :
  status_code exc1 = 404 ->
  status_code exc2 = 404 ->
  http_exception_handler request exc1 = http_exception_handler request exc2.
Proof.
  intros H1 H2.
  by rewrite (http_exception_handler_404_cases _ _ H1),
             (http_exception_handler_404_cases _ _ H2).
Qed.

Lemma http_exception_handler_404_drops_detail_witness :
  http_exception_handler {| url_path := "/api/v1/user/7" |} user_missing =
  http_exception_handler {| url_path := "/api/v1/user/7" |} not_found.
Proof.
  apply (http_exception_handler_404_drops_detail
           {| url_path := "/api/v1/user/7" |} user_missing not_found); reflexivity.
Defined.

(** X6. The handler redirects exactly when the status is 404 and the path
    does not start with ["/api"], and then always to ["/"]; every other
    answer is a JSON response carrying the status code of the error. *)
Theorem http_exception_handler_answers request exc :
  (forall url, http_exception_handler request exc = RedirectResponse url ->
     url = "/" /\ status_code exc = 404 /\ startswith (url_path request) "/api" = false)
  /\ (status_code exc = 404 -> startswith (url_path request) "/api" = false ->
      http_exception_handler request exc = RedirectResponse "/")
  /\ (forall code body, http_exception_handler request exc = JSONResponse code body ->
      code = status_code exc).
Proof.
  unfold http_exception_handler, HTTP_404_NOT_FOUND.
  destruct (decide (status_code exc = 404)) as [E|N];
    [destruct (startswith (url_path request) "/api")|]; simpl.
  - split; [discriminate|]. split; [discriminate|]. intros code body [= <- _]. done.
  - split; [intros url [= <-]; done|]. split; [done|discriminate].
  - split; [discriminate|]. split; [done|]. intros code body [= <- _]. done.
Qed.

Lemma http_exception_handler_answers_witness :
  http_exception_handler {| url_path := "/dashboard" |} user_missing = RedirectResponse "/".
Proof.
  apply (proj1 (proj2 (http_exception_handler_answers
                         {| url_path := "/dashboard" |} user_missing))); reflexivity.
Defined.

(** ** Static serving *)

(** X7. When [web/dist] exists, [load_static] returns and keeps what the
    application already had: the routes stay in place with the static
    mount added after them, the handlers of other exception classes are
    untouched, and a handler registered earlier for [HTTPException] is
    replaced by the one of this module. *)
Theorem load_static_frame isdir (a : FastAPI) :
  isdir "web/dist" = true ->
  exists a',
    load_static isdir a = Ok a'
    /\ routes a' = (routes a ++ [static_mount])%list
    /\ exception_handlers a' !! HTTPException_class = Some http_exception_handler
    /\ forall cls, cls <> HTTPException_class ->
         exception_handlers a' !! cls = exception_handlers a !! cls.
Proof.
  intros D. eexists. split; [by apply load_static_ok|]. simpl.
  split; [reflexivity|]. split.
  - apply lookup_insert_eq.
  - intros cls N. by apply lookup_insert_ne.
Qed.

Lemma load_static_frame_witness :
  exists a',
    load_static with_dist (app process1) = Ok a'
    /\ routes a' = [static_mount]
    /\ exception_handlers a' !! HTTPException_class = Some http_exception_handler
    /\ forall cls, cls <> HTTPException_class ->
         exception_handlers a' !! cls = exception_handlers (app process1) !! cls.
Proof. apply (load_static_frame with_dist (app process1)). reflexivity. Defined.

(** X8. When [web/dist] exists, calling [load_static] twice mounts the
    static directory twice, while the handler table is the same as after
    one call. *)
Theorem load_static_twice isdir (a : FastAPI) :
  isdir "web/dist" = true ->
  exists a1 a2,
    load_static isdir a = Ok a1
    /\ load_static isdir a1 = Ok a2
    /\ routes a2 = (routes a ++ [static_mount; static_mount])%list
    /\ exception_handlers a2 = exception_handlers a1.
Proof.
  intros D. eexists _, _.
  split; [by apply load_static_ok|]. split; [by apply load_static_ok|]. simpl.
  split.
  - by rewrite <- app_assoc.
  - apply insert_insert_eq.
Qed.

Lemma load_static_twice_witness :
  exists a1 a2,
    load_static with_dist (app process0) = Ok a1
    /\ load_static with_dist a1 = Ok a2
    /\ routes a2 = [static_mount; static_mount]
    /\ exception_handlers a2 = exception_handlers a1.
Proof. apply (load_static_twice with_dist (app process0)). reflexivity. Defined.

(** X13. [load_static] raises exactly when [web/dist] is not a directory,
    and what it raises is the [RuntimeError] of the [StaticFiles]
    constructor; the application then has received neither the mount nor
    the handler, as no application is returned. *)
Theorem load_static_raises_iff isdir (a : FastAPI) :
  ((exists e, load_static isdir a = Raise e) <-> isdir "web/dist" = false)
  /\ (forall e, load_static isdir a = Raise e ->
        e = RuntimeError "Directory 'web/dist' does not exist")
  /\ ((exists a', load_static isdir a = Ok a') <-> isdir "web/dist" = true).
Proof.
  destruct (isdir "web/dist") eqn:D.
  - rewrite (load_static_ok _ _ D). repeat split; try done.
    + intros [e ?]; done.
    + eauto.
  - rewrite (load_static_raise _ _ D). repeat split; try done.
    + eauto.
    + intros e [= <-]. done.
    + intros [a' ?]; done.
Qed.

(** ** Loading the environment *)

(** X9. Whenever [load_dotenv_file] returns, [settings.TORTOISE_ORM] has
    been replaced by the configuration built from [DATABASE_TYPE], whether
    static serving is on or off and whatever was stored before, [BASE_DIR]
    is kept, and a second call leaves the settings as the first one did.
    When it raises, the settings are as they were: [TORTOISE_ORM] has not
    been written. *)
Theorem load_dotenv_file_settings env isdir p :
  ((load_dotenv_file env isdir p).1 = Ok tt ->
     TORTOISE_ORM (settings (load_dotenv_file env isdir p).2) =
       (build_orm_config env (settings p) (env !! "DATABASE_TYPE")).2
     /\ BASE_DIR (settings (load_dotenv_file env isdir p).2) = BASE_DIR (settings p)
     /\ settings (load_dotenv_file env isdir (load_dotenv_file env isdir p).2).2 =
          settings (load_dotenv_file env isdir p).2)
  /\ (forall e, (load_dotenv_file env isdir p).1 = Raise e ->
        settings (load_dotenv_file env isdir p).2 = settings p)
  /\ ((load_dotenv_file env isdir p).1 = Ok tt
      <-> env !! "LOAD_STATIC_FROM_LOCAL" <> Some "true" \/ isdir "web/dist" = true).
Proof.
  rewrite !load_dotenv_file_cases. unfold getenv. simpl.
  destruct (decide (env !! "LOAD_STATIC_FROM_LOCAL" = Some "true")) as [E|N];
    [destruct (isdir "web/dist") eqn:D|]; simpl.
  - repeat split; try done. by right.
  - repeat split; try done. intros [?|?]; done.
  - repeat split; try done. by left.
Qed.

Lemma load_dotenv_file_settings_witness :
  TORTOISE_ORM (settings (load_dotenv_file {[ "LOAD_STATIC_FROM_LOCAL" := "true" ]}
                            with_dist process0).2) =
    (build_orm_config {[ "LOAD_STATIC_FROM_LOCAL" := "true" ]} settings0 None).2
  /\ settings (load_dotenv_file {[ "LOAD_STATIC_FROM_LOCAL" := "true" ]}
                 no_directory process0).2 = settings0.
Proof.
  split.
  - destruct (proj1 (load_dotenv_file_settings {[ "LOAD_STATIC_FROM_LOCAL" := "true" ]}
                       with_dist process0)) as [H _]; [reflexivity | exact H].
  - apply (proj1 (proj2 (load_dotenv_file_settings {[ "LOAD_STATIC_FROM_LOCAL" := "true" ]}
                           no_directory process0)) missing_dist). reflexivity.
Defined.



(** X11. With [LOAD_STATIC_FROM_LOCAL] equal to ["true"] and [web/dist]
    present, [load_dotenv_file] returns an application whose earlier routes
    are kept, followed by the static mount, and whose table holds the
    handler of this module for [HTTPException], whatever handler it held for
    that class before; the handlers of other classes are untouched. *)
Theorem load_dotenv_file_static_enabled env isdir p :
  env !! "LOAD_STATIC_FROM_LOCAL" = Some "true" ->
  isdir "web/dist" = true ->
  (load_dotenv_file env isdir p).1 = Ok tt
  /\ routes (app (load_dotenv_file env isdir p).2) = (routes (app p) ++ [static_mount])%list
  /\ exception_handlers (app (load_dotenv_file env isdir p).2) !! HTTPException_class =
       Some http_exception_handler
  /\ forall cls, cls <> HTTPException_class ->
       exception_handlers (app (load_dotenv_file env isdir p).2) !! cls =
       exception_handlers (app p) !! cls.
Proof.
  intros E D. rewrite load_dotenv_file_cases. unfold getenv. simpl.
  destruct (decide (env !! "LOAD_STATIC_FROM_LOCAL" = Some "true")); [|contradiction].
  rewrite D. simpl. split; [reflexivity|]. split; [reflexivity|]. split.
  - apply lookup_insert_eq.
  - intros cls N. by apply lookup_insert_ne.
Qed.

Lemma load_dotenv_file_static_enabled_witness :
  (load_dotenv_file {[ "LOAD_STATIC_FROM_LOCAL" := "true" ]} with_dist process1).1 = Ok tt
  /\ routes (app (load_dotenv_file {[ "LOAD_STATIC_FROM_LOCAL" := "true" ]}
                    with_dist process1).2) = [static_mount]
  /\ exception_handlers (app (load_dotenv_file {[ "LOAD_STATIC_FROM_LOCAL" := "true" ]}
                                with_dist process1).2) !! HTTPException_class =
       Some http_exception_handler
  /\ forall cls, cls <> HTTPException_class ->
       exception_handlers (app (load_dotenv_file {[ "LOAD_STATIC_FROM_LOCAL" := "true" ]}
                                  with_dist process1).2) !! cls =
       exception_handlers (app process1) !! cls.
Proof.
  apply (load_dotenv_file_static_enabled {[ "LOAD_STATIC_FROM_LOCAL" := "true" ]}
           with_dist process1); reflexivity.
Defined.

(** ** The startup callback *)

Section StartupFurther.
Context {World Exn : Type}.
Variables init_superuser init_menus : World -> outcome Exn unit * World.

(** X12. The callback returns normally exactly when the superuser task
    returns and the menu task, run on the world the superuser task left,
    returns as well; an exception of either task makes the callback raise. *)
Theorem startup_event_returns_iff (s : run_state World) :
  (startup_event init_superuser init_menus s).1 = Returned tt
  <-> exists w1, init_superuser (world s) = (Returned tt, w1)
                 /\ (init_menus w1).1 = Returned tt.
Proof.
  unfold startup_event, bind. rewrite await_unfold. simpl.
  destruct (init_superuser (world s)) as [[[]|e] w1]; simpl.
  - rewrite await_unfold. simpl. split.
    + intros H. exists w1. by split.
    + intros [w [[= <-] H]]. exact H.
  - split; [discriminate|]. intros [w [[=] _]].
Qed.
End StartupFurther.
